(** * drizzle-elysia-query: the guarded execution wrapper and the query dispatcher

    A shallow embedding of [src/database.ts] ([database], [databaseInitialize])
    and of the dispatcher [query] with its helpers [_isTArray] and
    [_formatItem].

    The object-relational layer, the schema library and the runtime's
    [inspect] are collaborators of the package; they enter the development
    as interfaces ([Database], [SchemaOps], [Runtime]). *)

From Stdlib Require Import String Ascii List ZArith Bool Lia.
Import ListNotations.
Open Scope string_scope.

Set Implicit Arguments.
Set Warnings "-register-all".

(** ** JavaScript values, as far as the dispatcher inspects them *)

Module JS.

(** [VStatus] is an instance of Elysia's [ElysiaCustomStatusResponse]: an
    object whose own properties are exactly [code] and [response].  Plain
    objects keep their properties in insertion order.  Numbers are the
    integer-valued ones. *)
Inductive value : Type :=
| VUndefined
| VNull
| VBool (b : bool)
| VNum (n : Z)
| VStr (s : string)
| VArr (items : list value)
| VObj (props : list (string * value))
| VStatus (code : Z) (response : value).

(** Outcome of evaluating something that may raise. *)
Inductive completion (A : Type) : Type :=
| Normal (a : A)
| Throw (e : value).
Arguments Throw {A} e.

Definition typeof (v : value) : string :=
  match v with
  | VUndefined => "undefined"
  | VBool _ => "boolean"
  | VNum _ => "number"
  | VStr _ => "string"
  | VNull | VArr _ | VObj _ | VStatus _ _ => "object"
  end.

(** [Array.isArray] *)
Definition isArray (v : value) : bool :=
  match v with VArr _ => true | _ => false end.

Definition isNull (v : value) : bool :=
  match v with VNull => true | _ => false end.

Definition isUndefined (v : value) : bool :=
  match v with VUndefined => true | _ => false end.

Definition hasKey (k : string) (props : list (string * value)) : bool :=
  existsb (fun kv => String.eqb (fst kv) k) props.

(** [Object.hasOwn], on the objects that are neither arrays nor null (the
    only ones the dispatcher asks about; elsewhere the answer here is
    [false]). *)
Definition hasOwn (v : value) (k : string) : bool :=
  match v with
  | VObj props => hasKey k props
  | VStatus _ _ => String.eqb k "code" || String.eqb k "response"
  | _ => false
  end.

(** [v.length] of an array *)
Definition arrayLength (v : value) : nat :=
  match v with VArr items => List.length items | _ => 0 end.

(** [v[0]]: out of range reads give [undefined] *)
Definition index0 (v : value) : value :=
  match v with
  | VArr (x :: _) => x
  | _ => VUndefined
  end.

(** Property read on a plain object: the first binding of the key. *)
Fixpoint getProp (k : string) (props : list (string * value)) : option value :=
  match props with
  | [] => None
  | (k', v) :: rest => if String.eqb k' k then Some v else getProp k rest
  end.

(** [String.prototype.endsWith] *)
Definition endsWith (s suffix : string) : bool :=
  (String.length suffix <=? String.length s)%nat &&
  String.eqb
    (substring (String.length s - String.length suffix) (String.length suffix) s)
    suffix.

(** [s.substring(0, n)] for [0 <= n]; a negative end index is clamped to
    zero by JavaScript, as the truncated subtraction on [nat] does.  Strings
    are sequences of 8-bit characters here, so names are taken to be ASCII. *)
Definition prefix (n : nat) (s : string) : string := substring 0 n s.

End JS.
Import JS.

(** ** Naming of the queried item *)

(** [_formatItem] *)
Definition _formatItem (name : string) (multiple : bool) : string :=
  if multiple then name
  else
    let shortened := prefix (String.length name - 1) name in
    if endsWith shortened "ie"
    then prefix (String.length shortened - 2) shortened ++ "y"
    else shortened.

(** ** The object-relational layer, at its interface *)

Module Drizzle.

(** [Identifier = string | number] *)
Inductive Identifier : Type :=
| IdString (s : string)
| IdNumber (n : Z).

Record Column : Type := { columnName : string }.

Record Table : Type := { tableName : string; columns : list Column }.

Definition getTableName (t : Table) : string := tableName t.

(** SQL expressions as the dispatcher builds them.  [sql_eq], [sql_and] and
    [sql_desc] are drizzle's [eq], [and] and [desc]; the column they receive
    is the caller's [idColumn], which may be missing at run time (the
    source's [idColumn!] is erased by the compiler). *)
Inductive SQL : Type :=
| sql_raw (text : string)
| sql_eq (column : option Column) (id : Identifier)
| sql_and (l r : SQL)
| sql_desc (column : option Column).

(** [Order extends Column | SQL] *)
Inductive Order : Type :=
| order_column (c : Column)
| order_sql (s : SQL).

(** [drizzle.select().from(t).where(w).orderBy(o)], with the optional
    clauses left out where the chain does not call them. *)
Record Select : Type := {
  from : Table;
  where_ : option SQL;
  orderBy : option Order
}.

(** The live handle.  Awaiting a read either yields the rows or raises, and
    may change the state [U] of what lies outside this package. *)
Record Database (U : Type) : Type := {
  run : Select -> U -> completion value * U
}.

End Drizzle.
Import Drizzle.

(** ** The schema library, at its interface

    Of the calls the dispatcher makes only [Value.Encode] stands in a [try];
    it is the one given a raising outcome here.  The other operations are
    taken to return: a schema on which one of them raises is outside this
    development. *)

Class SchemaOps (Schema : Type) : Type := {
  (** [schema.type] *)
  schemaType : Schema -> string;
  (** names of the properties a record of the schema declares (for an array
      schema, those of its items) *)
  properties : Schema -> list string;
  Value_Convert : Schema -> value -> value;
  Value_Encode : Schema -> value -> completion value;
  Value_Check : Schema -> value -> bool;
  Value_Errors : Schema -> value -> list value;
  Value_Clean : Schema -> value -> value;
  Value_Cast : Schema -> value -> value
}.

(** [inspect] of the runtime, used to render a caught failure. *)
Class Runtime : Type := { inspect : value -> string }.

(** ** Module state and diagnostics *)

Inductive Level : Type := LevelError | LevelWarn.

Record LogLine : Type := {
  level : Level;
  message : string;
  extra : list value
}.

(** [_database] is the module-level binding, [console] collects what was
    written by [console.error] and [console.warn] (oldest first), [outside]
    is the state an operation can reach.  The bound accessor is taken to
    return its handle: an accessor that raises is outside this development. *)
Record World (U : Type) : Type := {
  _database : option (unit -> Database U);
  console : list LogLine;
  outside : U
}.

(** The selection request: the argument object of [query]. *)
Module Req.
Record t (U Schema : Type) : Type := {
  id : option Identifier;
  idColumn : option Column;
  order : option Order;
  table : Table;
  schema : Schema;
  query : option SQL;
  complex : option (Database U -> U -> completion value * U);
  opaque : option bool
}.
End Req.

(** [error(code, response)] of Elysia *)
Definition _error (code : Z) (response : string) : value :=
  VStatus code (VStr response).

Section Core.

Context {U : Type}.

(** Computations over the module state. *)
Definition M (A : Type) : Type := World U -> A * World U.

Definition ret {A} (a : A) : M A := fun w => (a, w).

Definition bind {A B} (m : M A) (k : A -> M B) : M B :=
  fun w => let (a, w') := m w in k a w'.

Definition readHandle : M (option (unit -> Database U)) :=
  fun w => (_database w, w).

Definition log (l : Level) (msg : string) (args : list value) : M unit :=
  fun w =>
    (tt, {| _database := _database w;
            console := console w ++ [{| level := l; message := msg; extra := args |}];
            outside := outside w |}).

Definition console_error := log LevelError.
Definition console_warn := log LevelWarn.

(** Awaiting an operation on the outside state. *)
Definition await (op : U -> completion value * U) : M (completion value) :=
  fun w =>
    let (c, u) := op (outside w) in
    (c, {| _database := _database w; console := console w; outside := u |}).

(** [databaseInitialize]: the assignment is the value of the call. *)
Definition databaseInitialize (drizzle : unit -> Database U)
  : M (unit -> Database U) :=
  fun w =>
    (drizzle,
     {| _database := Some drizzle; console := console w; outside := outside w |}).

End Core.
Arguments M U A : clear implicits.

Notation "x <- m ;; k" := (bind m (fun x => k))
  (at level 61, m at next level, right associativity).
Notation "m ;;; k" := (bind m (fun _ => k))
  (at level 61, right associativity).

Section Dispatcher.

Context {U Schema : Type} {ops : SchemaOps Schema} {rt : Runtime}.

(** [database]: the guarded execution wrapper. *)
Definition database (query : Database U -> U -> completion value * U)
                    (operation : string) : M U value :=
  handle <- readHandle ;;
  match handle with
  | None =>
      console_error "databaseInitialize() has not been called yet!" [] ;;;
      ret (_error 503 "database is not ready")
  | Some _database =>
      outcome <- await (query (_database tt)) ;;
      match outcome with
      | Normal result => ret result
      | Throw e =>
          console_error ("an error occurred while " ++ operation) [VStr (inspect e)] ;;;
          ret (_error 500 ("couldn't " ++ operation))
      end
  end.

(** [_isTArray] *)
Definition _isTArray (schema : Schema) : bool :=
  String.eqb (schemaType schema) "array".

(** [order ?? desc(idColumn!)] *)
Definition orderOrDesc (order : option Order) (idColumn : option Column) : Order :=
  match order with
  | Some o => o
  | None => order_sql (sql_desc idColumn)
  end.

(** The operation handed to [database] by [query]. *)
Definition execution (r : Req.t U Schema) (drizzle : Database U)
  : U -> completion value * U :=
  match Req.complex r with
  | Some complex => complex drizzle
  | None =>
      match Req.query r with
      | Some query =>
          match Req.id r with
          | Some id =>
              run drizzle
                {| from := Req.table r;
                   where_ := Some (sql_and (sql_eq (Req.idColumn r) id) query);
                   orderBy := Some (orderOrDesc (Req.order r) (Req.idColumn r)) |}
          | None =>
              match Req.order r with
              | Some order =>
                  run drizzle
                    {| from := Req.table r; where_ := Some query; orderBy := Some order |}
              | None =>
                  run drizzle
                    {| from := Req.table r; where_ := Some query; orderBy := None |}
              end
          end
      | None =>
          match Req.id r with
          | Some id =>
              run drizzle
                {| from := Req.table r;
                   where_ := Some (sql_eq (Req.idColumn r) id);
                   orderBy := Some (orderOrDesc (Req.order r) (Req.idColumn r)) |}
          | None =>
              match Req.order r with
              | Some order =>
                  run drizzle
                    {| from := Req.table r; where_ := None; orderBy := Some order |}
              | None =>
                  run drizzle
                    {| from := Req.table r; where_ := None; orderBy := None |}
              end
          end
      end
  end.

(** The test that [values] is an error response of [database]. *)
Definition isErrorResponse (values : value) : bool :=
  String.eqb (typeof values) "object" &&
  negb (isArray values) &&
  negb (isNull values) &&
  hasOwn values "code" &&
  hasOwn values "response".

(** The not-found test. *)
Definition notFound (multiple : bool) (values : value) : bool :=
  negb multiple &&
  ((isArray values && negb (Nat.eqb (arrayLength values) 1)) || isUndefined values).

(** What is converted: the whole result, or its only row. *)
Definition selected (multiple : bool) (values : value) : value :=
  if multiple then values
  else if isArray values then index0 values else values.

(** The encoding pass with its [catch]. *)
Definition encodePass (schema : Schema) (title : string) (converted : value) : M U value :=
  match Value_Encode schema converted with
  | Normal encoded => ret encoded
  | Throw e =>
      console_warn ("an error occurred while encoding " ++ title)
                   [converted; VArr (Value_Errors schema converted)] ;;;
      ret converted
  end.

Definition opaqueFlag (r : Req.t U Schema) : bool :=
  match Req.opaque r with
  | Some b => b
  | None => false
  end.

(** What [query] does with the awaited [values]: the error short-circuit,
    the not-found test, conversion, the encoding pass, the validity check
    and the final clean and cast. *)
Definition resolve (r : Req.t U Schema) (values : value) : M U value :=
  let schema := Req.schema r in
  let opaque := opaqueFlag r in
  let multiple := _isTArray schema in
  let title := _formatItem (getTableName (Req.table r)) multiple in
  if isErrorResponse values then ret values
  else if notFound multiple values then
    if opaque then ret VUndefined
    else ret (_error 404 (title ++ " not found"))
  else
    value <- encodePass schema title (Value_Convert schema (selected multiple values)) ;;
    if negb (Value_Check schema value) then
      console_error ("an error occurred while parsing " ++ title)
                    [value; VArr (Value_Errors schema value)] ;;;
      if opaque then ret VUndefined
      else ret (_error 500 ("couldn't retrieve " ++ title))
    else
      ret (Value_Cast schema (Value_Clean schema value)).

(** The item name used in messages. *)
Definition titleOf (r : Req.t U Schema) : string :=
  _formatItem (getTableName (Req.table r)) (_isTArray (Req.schema r)).

(** [query]: the dispatcher. *)
Definition query (r : Req.t U Schema) : M U value :=
  let multiple := _isTArray (Req.schema r) in
  let title := _formatItem (getTableName (Req.table r)) multiple in
  values <- database (execution r) ("query " ++ title) ;;
  resolve r values.

End Dispatcher.

(** ** Vocabulary for the statements about [query] *)

Section Outcomes.

Context {U Schema : Type} {ops : SchemaOps Schema}.

(** What the schema is applied to: the rows of an array schema, the one
    record of a record schema. *)
Definition subject (r : Req.t U Schema) (values : value) : value :=
  selected (_isTArray (Req.schema r)) values.

(** The value handed to the encoding pass. *)
Definition converted (r : Req.t U Schema) (values : value) : value :=
  Value_Convert (Req.schema r) (subject r values).

(** The value that reaches the validity check: what the encoder returned,
    or the converted value when the encoder raised. *)
Definition reachesCheck (r : Req.t U Schema) (values checked : value) : Prop :=
  Value_Encode (Req.schema r) (converted r values) = Normal checked \/
  ((exists e, Value_Encode (Req.schema r) (converted r values) = Throw e) /\
   checked = converted r values).

(** The answer given from the validity check on: the cleaned and cast
    value, or the failure in the form the opaque flag selects. *)
Definition settled (r : Req.t U Schema) (checked : value) : value :=
  if Value_Check (Req.schema r) checked
  then Value_Cast (Req.schema r) (Value_Clean (Req.schema r) checked)
  else if opaqueFlag r then VUndefined
       else VStatus 500 (VStr ("couldn't retrieve " ++ titleOf r)).

(** The world once the read has returned: the outside state has moved,
    nothing was written to the console. *)
Definition afterRead (w : World U) (u : U) : World U :=
  {| _database := _database w; console := console w; outside := u |}.

(** The request [r] with its [opaque] field set to [o]. *)
Definition withOpaque (r : Req.t U Schema) (o : option bool) : Req.t U Schema :=
  {| Req.id := Req.id r;
     Req.idColumn := Req.idColumn r;
     Req.order := Req.order r;
     Req.table := Req.table r;
     Req.schema := Req.schema r;
     Req.query := Req.query r;
     Req.complex := Req.complex r;
     Req.opaque := o |}.

End Outcomes.

(** ** Projection of records onto declared properties *)

Definition declared (keys : list string) (k : string) : bool :=
  existsb (String.eqb k) keys.

Definition stripProps (keys : list string) (props : list (string * value))
  : list (string * value) :=
  filter (fun kv => declared keys (fst kv)) props.

Definition stripRecord (keys : list string) (v : value) : value :=
  match v with
  | VObj props => VObj (stripProps keys props)
  | _ => v
  end.

(** A record, or an array of records, without the properties outside [keys]. *)
Definition strip (keys : list string) (v : value) : value :=
  match v with
  | VArr rows => VArr (map (stripRecord keys) rows)
  | _ => stripRecord keys v
  end.

Definition onlyDeclaredProps (keys : list string) (props : list (string * value)) : bool :=
  forallb (fun kv => declared keys (fst kv)) props.

Definition onlyDeclaredRecord (keys : list string) (v : value) : bool :=
  match v with
  | VObj props => onlyDeclaredProps keys props
  | _ => true
  end.

(** No record of [v] has a property outside [keys]. *)
Definition onlyDeclared (keys : list string) (v : value) : bool :=
  match v with
  | VArr rows => forallb (onlyDeclaredRecord keys) rows
  | _ => onlyDeclaredRecord keys v
  end.

(** The wording of the not-found rule: the result is absent, or it is a
    sequence whose length is not one. *)
Definition absentOrNotSingle (values : value) : Prop :=
  values = VUndefined \/
  exists items, values = VArr items /\ List.length items <> 1.

(** ** A small instance of the interfaces

    Flat record schemas over three primitive types, an array form of them,
    and handles that answer every read with fixed rows.  The outside state
    counts the reads that were run. *)

Module Sample.

Inductive FieldType : Type := TInteger | TString | TBoolean.

Record schema : Type := {
  type : string;
  fields : list (string * FieldType);
  encoderRaises : bool
}.

Definition fieldOk (t : FieldType) (v : value) : bool :=
  match t, v with
  | TInteger, VNum _ => true
  | TString, VStr _ => true
  | TBoolean, VBool _ => true
  | _, _ => false
  end.

Definition checkRecord (fs : list (string * FieldType)) (v : value) : bool :=
  match v with
  | VObj props =>
      forallb (fun f => match getProp (fst f) props with
                        | Some x => fieldOk (snd f) x
                        | None => false
                        end) fs
  | _ => false
  end.

Definition check (s : schema) (v : value) : bool :=
  if String.eqb (type s) "array"
  then match v with
       | VArr rows => forallb (checkRecord (fields s)) rows
       | _ => false
       end
  else checkRecord (fields s) v.

Definition convertField (t : FieldType) (v : value) : value :=
  match t, v with
  | TInteger, VBool true => VNum 1
  | TInteger, VBool false => VNum 0
  | TBoolean, VNum 1 => VBool true
  | TBoolean, VNum 0 => VBool false
  | _, _ => v
  end.

Fixpoint fieldType (k : string) (fs : list (string * FieldType)) : option FieldType :=
  match fs with
  | [] => None
  | (k', t) :: rest => if String.eqb k' k then Some t else fieldType k rest
  end.

Definition convertRecord (fs : list (string * FieldType)) (v : value) : value :=
  match v with
  | VObj props =>
      VObj (map (fun kv => match fieldType (fst kv) fs with
                           | Some t => (fst kv, convertField t (snd kv))
                           | None => kv
                           end) props)
  | _ => v
  end.

Definition convert (s : schema) (v : value) : value :=
  if String.eqb (type s) "array"
  then match v with
       | VArr rows => VArr (map (convertRecord (fields s)) rows)
       | _ => v
       end
  else convertRecord (fields s) v.

Definition encode (s : schema) (v : value) : completion value :=
  if encoderRaises s then Throw (VStr "encoder failed")
  else if check s v then Normal v
  else Throw (VStr "value does not match the schema").

Definition errors (s : schema) (v : value) : list value :=
  if check s v then [] else [VStr "unexpected value"].

Definition clean (s : schema) (v : value) : value :=
  strip (map fst (fields s)) v.

Definition defaultOf (t : FieldType) : value :=
  match t with
  | TInteger => VNum 0
  | TString => VStr ""
  | TBoolean => VBool false
  end.

Definition cast (s : schema) (v : value) : value :=
  if check s v then v
  else if String.eqb (type s) "array" then VArr []
  else VObj (map (fun f => (fst f, defaultOf (snd f))) (fields s)).

#[global] Instance ops : SchemaOps schema := {|
  schemaType := type;
  properties := fun s => map fst (fields s);
  Value_Convert := convert;
  Value_Encode := encode;
  Value_Check := check;
  Value_Errors := errors;
  Value_Clean := clean;
  Value_Cast := cast
|}.

#[global] Instance runtime : Runtime := {|
  inspect := fun e => match e with VStr s => s | _ => "[object]" end
|}.

Definition User : schema :=
  {| type := "object";
     fields := [("id", TInteger); ("name", TString)];
     encoderRaises := false |}.

Definition Users : schema :=
  {| type := "array"; fields := fields User; encoderRaises := false |}.

(** [User] with a transform whose encoder raises. *)
Definition LegacyUser : schema :=
  {| type := "object"; fields := fields User; encoderRaises := true |}.

(** A schema whose records declare [code] and [response]. *)
Definition Reply : schema :=
  {| type := "object";
     fields := [("code", TInteger); ("response", TString)];
     encoderRaises := false |}.

Definition usersId : Column := {| columnName := "id" |}.
Definition users : Table := {| tableName := "users"; columns := [usersId] |}.

(** A handle that answers every read with [rows]. *)
Definition answering (rows : value) : Database nat :=
  {| run := fun _ n => (Normal rows, S n) |}.

(** A handle whose reads raise. *)
Definition failing : Database nat :=
  {| run := fun _ n => (Throw (VStr "connection lost"), S n) |}.

Definition unbound : World nat :=
  {| _database := None; console := []; outside := 0 |}.

Definition bound (d : Database nat) : World nat :=
  {| _database := Some (fun _ => d); console := []; outside := 0 |}.

Definition byId (s : schema) (n : Z) (o : option bool) : Req.t nat schema :=
  {| Req.id := Some (IdNumber n);
     Req.idColumn := Some usersId;
     Req.order := None;
     Req.table := users;
     Req.schema := s;
     Req.query := None;
     Req.complex := None;
     Req.opaque := o |}.

Definition everything (s : schema) (o : option bool) : Req.t nat schema :=
  {| Req.id := None;
     Req.idColumn := None;
     Req.order := None;
     Req.table := users;
     Req.schema := s;
     Req.query := None;
     Req.complex := None;
     Req.opaque := o |}.

(** A custom query that returns [v] without reading, together with an
    identifier. *)
Definition custom (s : schema) (v : value) (o : option bool) : Req.t nat schema :=
  {| Req.id := Some (IdNumber 1);
     Req.idColumn := Some usersId;
     Req.order := None;
     Req.table := users;
     Req.schema := s;
     Req.query := None;
     Req.complex := Some (fun _ n => (Normal v, n));
     Req.opaque := o |}.

Definition alice : value := VObj [("id", VNum 1); ("name", VStr "alice")].

Definition aliceWithHash : value :=
  VObj [("id", VNum 1); ("password", VStr "x"); ("name", VStr "alice")].

Definition reply : value :=
  VObj [("code", VNum 7); ("response", VStr "ok"); ("secret", VStr "s")].

End Sample.

(** ** A second instance: constraints and transforms

    The schemas of [Sample] with two options a schema may carry: a least
    number of items for an array, and a transform whose encoder adds a
    constant to the numeric [id] of a record. *)

Module Constrained.

Record schema : Type := {
  base : Sample.schema;
  minItems : nat;
  encoderAdds : Z
}.

Definition isArraySchema (s : schema) : bool :=
  String.eqb (Sample.type (base s)) "array".

Definition check (s : schema) (v : value) : bool :=
  Sample.check (base s) v &&
  (if isArraySchema s then (minItems s <=? arrayLength v)%nat else true).

Definition addToId (n : Z) (kv : string * value) : string * value :=
  match kv with
  | (k, VNum i) => if String.eqb k "id" then (k, VNum (i + n)) else kv
  | _ => kv
  end.

Definition encodeRecord (n : Z) (v : value) : value :=
  match v with
  | VObj props => VObj (map (addToId n) props)
  | _ => v
  end.

Definition encodeValue (n : Z) (v : value) : value :=
  match v with
  | VArr rows => VArr (map (encodeRecord n) rows)
  | _ => encodeRecord n v
  end.

Definition encode (s : schema) (v : value) : completion value :=
  if check s (encodeValue (encoderAdds s) v)
  then Normal (encodeValue (encoderAdds s) v)
  else Throw (VStr "value does not match the schema").

Definition errors (s : schema) (v : value) : list value :=
  if check s v then [] else [VStr "unexpected value"].

Definition cast (s : schema) (v : value) : value :=
  if check s v then v else Sample.cast (base s) v.

#[global] Instance ops : SchemaOps schema := {|
  schemaType := fun s => Sample.type (base s);
  properties := fun s => map fst (Sample.fields (base s));
  Value_Convert := fun s => Sample.convert (base s);
  Value_Encode := encode;
  Value_Check := check;
  Value_Errors := errors;
  Value_Clean := fun s => Sample.clean (base s);
  Value_Cast := cast
|}.

(** An array of users that must not be empty. *)
Definition SomeUsers : schema :=
  {| base := Sample.Users; minItems := 1; encoderAdds := 0 |}.

(** A user whose encoder adds one to [id]. *)
Definition ShiftedUser : schema :=
  {| base := Sample.User; minItems := 0; encoderAdds := 1 |}.

Definition everything (s : schema) (o : option bool) : Req.t nat schema :=
  {| Req.id := None;
     Req.idColumn := None;
     Req.order := None;
     Req.table := Sample.users;
     Req.schema := s;
     Req.query := None;
     Req.complex := None;
     Req.opaque := o |}.

Definition byId (s : schema) (n : Z) (o : option bool) : Req.t nat schema :=
  {| Req.id := Some (IdNumber n);
     Req.idColumn := Some Sample.usersId;
     Req.order := None;
     Req.table := Sample.users;
     Req.schema := s;
     Req.query := None;
     Req.complex := None;
     Req.opaque := o |}.

End Constrained.

(** * Properties *)

Unset Implicit Arguments.

(** ** Strings *)

Lemma length_app (a b : string) :
  String.length (a ++ b) = String.length a + String.length b.
Proof.
  induction a as [| c a IH]; simpl; [reflexivity | now rewrite IH].
Qed.

Lemma prefix_app (a b : string) : prefix (String.length a) (a ++ b) = a.
Proof.
  unfold prefix.
  induction a as [| c a IH]; simpl.
  - now destruct b.
  - now rewrite IH.
Qed.

Lemma substring_skip (a b : string) (n : nat) :
  substring (String.length a) n (a ++ b) = substring 0 n b.
Proof.
  induction a as [| c a IH]; simpl; [reflexivity | exact IH].
Qed.

Lemma substring_all (s : string) : substring 0 (String.length s) s = s.
Proof.
  induction s as [| c s IH]; simpl; [reflexivity | now rewrite IH].
Qed.

Lemma endsWith_app (a suffix : string) : endsWith (a ++ suffix) suffix = true.
Proof.
  unfold endsWith.
  rewrite length_app.
  replace (String.length a + String.length suffix - String.length suffix)
    with (String.length a) by lia.
  rewrite substring_skip, substring_all, String.eqb_refl.
  rewrite andb_true_r.
  apply Nat.leb_le; lia.
Qed.

Lemma strip_last (stem : string) (c : ascii) :
  prefix (String.length (stem ++ String c "") - 1) (stem ++ String c "") = stem.
Proof.
  rewrite length_app; simpl.
  replace (String.length stem + 1 - 1) with (String.length stem) by lia.
  apply prefix_app.
Qed.

(** C6: the item name is the table name for an array schema; for a record
    schema it is the table name without its last character, and when what
    remains ends in "ie" those two characters become "y".  The empty name
    stays empty. *)
Theorem formatItem_display_name :
  (forall name, _formatItem name true = name) /\
  _formatItem "" false = "" /\
  (forall stem c,
      endsWith stem "ie" = false ->
      _formatItem (stem ++ String c "") false = stem) /\
  (forall stem c,
      _formatItem ((stem ++ "ie") ++ String c "") false = stem ++ "y") /\
  _formatItem "categories" false = "category" /\
  _formatItem "entries" false = "entry" /\
  _formatItem "users" false = "user".
Proof.
  repeat split; try reflexivity.
  - intros stem c Hie.
    unfold _formatItem.
    rewrite strip_last, Hie.
    reflexivity.
  - intros stem c.
    unfold _formatItem.
    rewrite strip_last, endsWith_app, length_app.
    simpl String.length.
    replace (String.length stem + 2 - 2) with (String.length stem) by lia.
    now rewrite prefix_app.
Qed.

Lemma formatItem_display_name_witness :
  endsWith "user" "ie" = false /\ _formatItem ("user" ++ String "s" "") false = "user".
Proof.
  split; [reflexivity |].
  apply (proj1 (proj2 (proj2 formatItem_display_name)) "user" "s"%char).
  reflexivity.
Defined.

(** ** Guarded execution *)

Section DatabaseFacts.

Context {U : Type} {rt : Runtime}.

Implicit Types (op : Database U -> U -> completion value * U) (w : World U).

Lemma database_unbound op label w :
  _database w = None ->
  database op label w =
    (_error 503 "database is not ready",
     {| _database := None;
        console := console w ++
          [{| level := LevelError;
              message := "databaseInitialize() has not been called yet!";
              extra := [] |}];
        outside := outside w |}).
Proof.
  intros Hnone.
  destruct w as [h lines u]; simpl in Hnone; subst h.
  reflexivity.
Qed.

Lemma database_returns op label w handle result u :
  _database w = Some handle ->
  op (handle tt) (outside w) = (Normal result, u) ->
  database op label w =
    (result, {| _database := Some handle; console := console w; outside := u |}).
Proof.
  intros Hsome Hop.
  destruct w as [h lines u0]; simpl in Hsome, Hop; subst h.
  unfold database, bind, readHandle, await, ret; simpl.
  now rewrite Hop.
Qed.

Lemma database_raises op label w handle e u :
  _database w = Some handle ->
  op (handle tt) (outside w) = (Throw e, u) ->
  database op label w =
    (_error 500 ("couldn't " ++ label),
     {| _database := Some handle;
        console := console w ++
          [{| level := LevelError;
              message := "an error occurred while " ++ label;
              extra := [VStr (inspect e)] |}];
        outside := u |}).
Proof.
  intros Hsome Hop.
  destruct w as [h lines u0]; simpl in Hsome, Hop; subst h.
  unfold database, bind, readHandle, await, console_error, log, ret; simpl.
  now rewrite Hop.
Qed.

(** C3: while the handle is unbound, [database] answers 503 "database is
    not ready", writes one diagnostic, and leaves the outside state as it
    was whatever the operation would have done: the operation is not run. *)
Theorem database_not_ready op label w :
  _database w = None ->
  fst (database op label w) = VStatus 503 (VStr "database is not ready") /\
  outside (snd (database op label w)) = outside w /\
  _database (snd (database op label w)) = None /\
  console (snd (database op label w)) =
    (console w ++
     [{| level := LevelError;
         message := "databaseInitialize() has not been called yet!";
         extra := [] |}])%list /\
  forall op', database op' label w = database op label w.
Proof.
  intros Hnone.
  rewrite (database_unbound op label w Hnone).
  repeat split.
  intros op'.
  now rewrite (database_unbound op' label w Hnone).
Qed.

End DatabaseFacts.

Lemma database_not_ready_witness :
  _database Sample.unbound = None /\
  outside (snd (database (fun d n => run d {| from := Sample.users; where_ := None; orderBy := None |} n)
                         "count users" Sample.unbound)) = 0.
Proof.
  split; [reflexivity |].
  apply (database_not_ready
           (fun d n => run d {| from := Sample.users; where_ := None; orderBy := None |} n)
           "count users" Sample.unbound).
  reflexivity.
Defined.

(** ** The dispatcher *)

Section QueryFacts.

Context {U Schema : Type} {ops : SchemaOps Schema} {rt : Runtime}.

Implicit Types (r : Req.t U Schema) (w : World U).

Lemma isErrorResponse_status code response :
  isErrorResponse (VStatus code response) = true.
Proof. reflexivity. Qed.

Lemma isErrorResponse_object props :
  isErrorResponse (VObj props) = hasKey "code" props && hasKey "response" props.
Proof. reflexivity. Qed.

Lemma query_unbound r w :
  _database w = None ->
  fst (query r w) = _error 503 "database is not ready".
Proof.
  intros Hnone.
  unfold query, bind.
  now rewrite (database_unbound _ _ w Hnone).
Qed.

Lemma query_raises r w handle e u :
  _database w = Some handle ->
  execution r (handle tt) (outside w) = (Throw e, u) ->
  fst (query r w) = _error 500 ("couldn't query " ++ titleOf r).
Proof.
  intros Hsome Hop.
  unfold query, bind.
  now rewrite (database_raises _ _ w handle e u Hsome Hop).
Qed.

Lemma query_returns r w handle values u :
  _database w = Some handle ->
  execution r (handle tt) (outside w) = (Normal values, u) ->
  query r w =
    resolve r values {| _database := Some handle; console := console w; outside := u |}.
Proof.
  intros Hsome Hop.
  unfold query, bind.
  now rewrite (database_returns _ _ w handle values u Hsome Hop).
Qed.

(** C4: with the handle bound, an operation that raises makes [database]
    answer 500 "couldn't {label}"; [query] runs its read under the label
    "query {item name}", so a raise there gives "couldn't query {item
    name}". *)
Theorem operation_failed_message :
  (forall (op : Database U -> U -> completion value * U) label w handle e u,
      _database w = Some handle ->
      op (handle tt) (outside w) = (Throw e, u) ->
      fst (database op label w) = VStatus 500 (VStr ("couldn't " ++ label))) /\
  (forall r w handle e u,
      _database w = Some handle ->
      execution r (handle tt) (outside w) = (Throw e, u) ->
      fst (query r w) = VStatus 500 (VStr ("couldn't query " ++ titleOf r))).
Proof.
  split.
  - intros op label w handle e u Hsome Hop.
    now rewrite (database_raises op label w handle e u Hsome Hop).
  - intros r w handle e u Hsome Hop.
    exact (query_raises r w handle e u Hsome Hop).
Qed.

(** C1, as the code has it: in opaque mode the two failures of guarded
    execution are handed back as status responses, they are not replaced
    by [undefined]. *)
Theorem opaque_keeps_execution_errors r w :
  opaqueFlag r = true ->
  (_database w = None ->
     fst (query r w) = VStatus 503 (VStr "database is not ready") /\
     fst (query r w) <> VUndefined) /\
  (forall handle e u,
     _database w = Some handle ->
     execution r (handle tt) (outside w) = (Throw e, u) ->
     fst (query r w) = VStatus 500 (VStr ("couldn't query " ++ titleOf r)) /\
     fst (query r w) <> VUndefined).
Proof.
  intros _.
  split.
  - intros Hnone.
    rewrite (query_unbound r w Hnone).
    split; [reflexivity | discriminate].
  - intros handle e u Hsome Hop.
    rewrite (query_raises r w handle e u Hsome Hop).
    split; [reflexivity | discriminate].
Qed.

End QueryFacts.

Lemma operation_failed_message_witness :
  fst (query (Sample.byId Sample.User 1 None) (Sample.bound Sample.failing))
  = VStatus 500 (VStr "couldn't query user").
Proof.
  exact (proj2 operation_failed_message
           (Sample.byId Sample.User 1 None) (Sample.bound Sample.failing)
           (fun _ => Sample.failing) (VStr "connection lost") 1
           eq_refl eq_refl).
Defined.

Lemma opaque_keeps_execution_errors_witness :
  fst (query (Sample.byId Sample.User 1 (Some true)) Sample.unbound)
  = VStatus 503 (VStr "database is not ready") /\
  fst (query (Sample.byId Sample.User 1 (Some true)) Sample.unbound) <> VUndefined.
Proof.
  apply (proj1 (opaque_keeps_execution_errors
                  (Sample.byId Sample.User 1 (Some true)) Sample.unbound eq_refl)).
  reflexivity.
Defined.

(** ** After the read *)

Section ResolveFacts.

Context {U Schema : Type} {ops : SchemaOps Schema} {rt : Runtime}.

Implicit Types (r : Req.t U Schema) (w : World U) (values : value).

Lemma resolve_error_shaped r values w :
  isErrorResponse values = true -> resolve r values w = (values, w).
Proof.
  intros Hshape. unfold resolve. now rewrite Hshape.
Qed.

Lemma resolve_not_found r values w :
  notFound (_isTArray (Req.schema r)) values = true ->
  resolve r values w =
    (if opaqueFlag r then VUndefined
     else VStatus 404 (VStr (titleOf r ++ " not found")), w).
Proof.
  intros Hnf. unfold resolve.
  assert (Hshape : isErrorResponse values = false).
  { unfold notFound in Hnf.
    destruct values; simpl in Hnf; try reflexivity;
      rewrite ?andb_false_r in Hnf; discriminate. }
  rewrite Hshape, Hnf.
  now destruct (opaqueFlag r).
Qed.

Lemma resolve_encoded r values w encoded :
  isErrorResponse values = false ->
  notFound (_isTArray (Req.schema r)) values = false ->
  Value_Encode (Req.schema r) (converted r values) = Normal encoded ->
  fst (resolve r values w) = settled r encoded /\
  console (snd (resolve r values w)) =
    (console w ++
     (if Value_Check (Req.schema r) encoded then []
      else [{| level := LevelError;
               message := "an error occurred while parsing " ++ titleOf r;
               extra := [encoded; VArr (Value_Errors (Req.schema r) encoded)] |}]))%list.
Proof.
  intros Hshape Hnf Henc.
  unfold resolve, settled, converted, subject in *.
  rewrite Hshape, Hnf.
  unfold encodePass, bind. rewrite Henc. unfold ret.
  destruct (Value_Check (Req.schema r) encoded); simpl.
  - now rewrite app_nil_r.
  - now destruct (opaqueFlag r).
Qed.

Lemma resolve_encoder_raised r values w e :
  isErrorResponse values = false ->
  notFound (_isTArray (Req.schema r)) values = false ->
  Value_Encode (Req.schema r) (converted r values) = Throw e ->
  fst (resolve r values w) = settled r (converted r values) /\
  console (snd (resolve r values w)) =
    (console w ++
     {| level := LevelWarn;
        message := "an error occurred while encoding " ++ titleOf r;
        extra := [converted r values;
                  VArr (Value_Errors (Req.schema r) (converted r values))] |} ::
     (if Value_Check (Req.schema r) (converted r values) then []
      else [{| level := LevelError;
               message := "an error occurred while parsing " ++ titleOf r;
               extra := [converted r values;
                         VArr (Value_Errors (Req.schema r) (converted r values))] |}]))%list.
Proof.
  intros Hshape Hnf Henc.
  unfold resolve, settled, converted, subject in *.
  rewrite Hshape, Hnf.
  unfold encodePass, bind. rewrite Henc.
  unfold console_warn, console_error, log, ret; simpl.
  destruct (Value_Check (Req.schema r) _); simpl.
  - split; reflexivity.
  - rewrite <- app_assoc. now destruct (opaqueFlag r).
Qed.

Lemma reachesCheck_total r values : exists checked, reachesCheck r values checked.
Proof.
  unfold reachesCheck.
  destruct (Value_Encode (Req.schema r) (converted r values)) as [encoded | e] eqn:Henc.
  - exists encoded. now left.
  - exists (converted r values). right. split; [now exists e | reflexivity].
Qed.

Lemma resolve_settles r values w checked :
  isErrorResponse values = false ->
  notFound (_isTArray (Req.schema r)) values = false ->
  reachesCheck r values checked ->
  fst (resolve r values w) = settled r checked.
Proof.
  intros Hshape Hnf [Henc | [[e Henc] ->]].
  - exact (proj1 (resolve_encoded r values w checked Hshape Hnf Henc)).
  - exact (proj1 (resolve_encoder_raised r values w e Hshape Hnf Henc)).
Qed.

Lemma resolve_world r values w :
  _database (snd (resolve r values w)) = _database w /\
  outside (snd (resolve r values w)) = outside w.
Proof.
  unfold resolve, encodePass, bind, console_warn, console_error, log, ret.
  destruct (isErrorResponse values); [now split |].
  destruct (notFound _ values); [now destruct (opaqueFlag r) |].
  destruct (Value_Encode _ _) as [encoded | e]; simpl;
    destruct (Value_Check _ _); simpl; try (now split);
    now destruct (opaqueFlag r).
Qed.

End ResolveFacts.

(** ** Projection onto the declared properties *)

Lemma getProp_stripProps_declared keys props k :
  declared keys k = true ->
  getProp k (stripProps keys props) = getProp k props.
Proof.
  intros Hk.
  induction props as [| [k' v] rest IH]; simpl; [reflexivity |].
  destruct (declared keys k') eqn:Hk'; simpl.
  - now rewrite IH.
  - destruct (String.eqb_spec k' k) as [-> | _]; [congruence | exact IH].
Qed.

Lemma getProp_stripProps_undeclared keys props k :
  declared keys k = false ->
  getProp k (stripProps keys props) = None.
Proof.
  intros Hk.
  induction props as [| [k' v] rest IH]; simpl; [reflexivity |].
  destruct (declared keys k') eqn:Hk'; simpl; [| exact IH].
  destruct (String.eqb_spec k' k) as [-> | _]; [congruence | exact IH].
Qed.

Lemma stripProps_only_declared keys props :
  onlyDeclaredProps keys props = true -> stripProps keys props = props.
Proof.
  unfold onlyDeclaredProps, stripProps.
  induction props as [| kv rest IH]; simpl; [reflexivity |].
  intros H. apply andb_true_iff in H as [Hkv Hrest].
  now rewrite Hkv, IH.
Qed.

Lemma stripRecord_only_declared keys v :
  onlyDeclaredRecord keys v = true -> stripRecord keys v = v.
Proof.
  destruct v; simpl; try reflexivity.
  intros H. now rewrite stripProps_only_declared.
Qed.

Lemma strip_only_declared keys v :
  onlyDeclared keys v = true -> strip keys v = v.
Proof.
  destruct v as [| | | | | rows | props |]; simpl; try reflexivity.
  - intros H. f_equal.
    induction rows as [| row rows IH]; simpl; [reflexivity |].
    simpl in H. apply andb_true_iff in H as [Hrow Hrows].
    now rewrite stripRecord_only_declared, IH.
  - intros H. now rewrite stripProps_only_declared.
Qed.

Lemma notFound_wording values :
  notFound false values = true <-> absentOrNotSingle values.
Proof.
  unfold notFound, absentOrNotSingle.
  split.
  - destruct values as [| | | | | items | |]; simpl; try discriminate.
    + now left.
    + intros H. right. exists items. split; [reflexivity |].
      rewrite orb_false_r in H.
      apply negb_true_iff, Nat.eqb_neq in H. exact H.
  - intros [-> | [items [-> Hlen]]]; simpl; [reflexivity |].
    rewrite orb_false_r.
    now apply negb_true_iff, Nat.eqb_neq.
Qed.

(** ** Behaviour of [query] *)

Section QueryClaims.

Context {U Schema : Type} {ops : SchemaOps Schema} {rt : Runtime}.

Implicit Types (r : Req.t U Schema) (w : World U) (values : value).

Lemma query_resolves r w handle values u :
  _database w = Some handle ->
  execution r (handle tt) (outside w) = (Normal values, u) ->
  query r w = resolve r values (afterRead w u).
Proof.
  intros Hsome Hop.
  rewrite (query_returns r w handle values u Hsome Hop).
  unfold afterRead. now rewrite Hsome.
Qed.

(** C10: when the read completes normally with a plain object that owns
    both "code" and "response", [query] takes it for an error response of
    [database] and returns it as it is, whatever the opaque flag and the
    schema: no diagnostic is written and no schema operation takes part. *)
Theorem error_shaped_result_returned_verbatim r w handle props u :
  _database w = Some handle ->
  execution r (handle tt) (outside w) = (Normal (VObj props), u) ->
  hasKey "code" props = true ->
  hasKey "response" props = true ->
  query r w = (VObj props, afterRead w u).
Proof.
  intros Hsome Hop Hcode Hresponse.
  rewrite (query_resolves r w handle _ u Hsome Hop).
  apply resolve_error_shaped.
  rewrite isErrorResponse_object, Hcode, Hresponse.
  reflexivity.
Qed.

(** C5: a request with a custom query function runs exactly that function
    under [database].  With the handle bound, what the function returns is
    what [query] goes on with, and the outside state is the one the function
    left; when the function raises, the answer is 500 "couldn't query {item
    name}" with the diagnostic of [database]; while the handle is unbound the
    function is not run.  The identifier, its column, the filter and the
    ordering take no part: two such requests that agree on the function, the
    table, the schema and the opaque flag behave alike. *)
Theorem custom_query_alone r f :
  Req.complex r = Some f ->
  (forall drizzle u, execution r drizzle u = f drizzle u) /\
  (forall r',
      Req.complex r' = Some f ->
      Req.table r' = Req.table r ->
      Req.schema r' = Req.schema r ->
      Req.opaque r' = Req.opaque r ->
      forall w, query r' w = query r w) /\
  (forall w handle values u,
      _database w = Some handle ->
      f (handle tt) (outside w) = (Normal values, u) ->
      query r w = resolve r values (afterRead w u) /\
      outside (snd (query r w)) = u) /\
  (forall w handle e u,
      _database w = Some handle ->
      f (handle tt) (outside w) = (Throw e, u) ->
      query r w =
        (VStatus 500 (VStr ("couldn't query " ++ titleOf r)),
         {| _database := Some handle;
            console := console w ++
              [{| level := LevelError;
                  message := "an error occurred while query " ++ titleOf r;
                  extra := [VStr (inspect e)] |}];
            outside := u |})) /\
  (forall w,
      _database w = None ->
      fst (query r w) = VStatus 503 (VStr "database is not ready") /\
      outside (snd (query r w)) = outside w).
Proof.
  intros Hcomplex.
  assert (Hexec : forall drizzle u, execution r drizzle u = f drizzle u).
  { intros drizzle u. unfold execution. now rewrite Hcomplex. }
  split; [exact Hexec |].
  split; [| split; [| split]].
  - intros r' Hcomplex' Htable Hschema Hopaque w.
    destruct r as [i c o t s q x p], r' as [i' c' o' t' s' q' x' p'].
    simpl in *. subst.
    reflexivity.
  - intros w handle values u Hbound Hrun.
    rewrite <- Hexec in Hrun.
    rewrite (query_resolves r w handle values u Hbound Hrun).
    split; [reflexivity |].
    exact (proj2 (resolve_world r values (afterRead w u))).
  - intros w handle e u Hbound Hrun.
    rewrite <- Hexec in Hrun.
    unfold query, bind.
    rewrite (database_raises _ _ w handle e u Hbound Hrun).
    reflexivity.
  - intros w Hunbound.
    unfold query, bind.
    rewrite (database_unbound _ _ w Hunbound).
    split; reflexivity.
Qed.

(** C2: for a record schema, a read that returned normally is answered
    with not-found (undefined in opaque mode, else 404 "{item name} not
    found") exactly when the result is absent or an array whose length is
    not one; otherwise the result goes on to the error short-circuit or to
    conversion and the validity check.  For an array schema the not-found
    rule never applies: zero rows are converted and checked like any other
    result, and come back as the empty array when the schema operations
    accept the empty array as it is, and as the validation failure when the
    value that reaches the check is rejected. *)
Theorem not_found_classification :
  (forall values, notFound false values = true <-> absentOrNotSingle values) /\
  (forall values, notFound true values = false) /\
  (forall r w handle values u,
      _isTArray (Req.schema r) = false ->
      _database w = Some handle ->
      execution r (handle tt) (outside w) = (Normal values, u) ->
      absentOrNotSingle values ->
      query r w =
        (if opaqueFlag r then VUndefined
         else VStatus 404 (VStr (titleOf r ++ " not found")),
         afterRead w u)) /\
  (forall r w handle values u,
      _database w = Some handle ->
      execution r (handle tt) (outside w) = (Normal values, u) ->
      _isTArray (Req.schema r) = true \/ ~ absentOrNotSingle values ->
      if isErrorResponse values
      then query r w = (values, afterRead w u)
      else exists checked,
          reachesCheck r values checked /\
          fst (query r w) = settled r checked) /\
  (forall r w handle u,
      _isTArray (Req.schema r) = true ->
      _database w = Some handle ->
      execution r (handle tt) (outside w) = (Normal (VArr []), u) ->
      Value_Convert (Req.schema r) (VArr []) = VArr [] ->
      (Value_Encode (Req.schema r) (VArr []) = Normal (VArr []) \/
       exists e, Value_Encode (Req.schema r) (VArr []) = Throw e) ->
      Value_Check (Req.schema r) (VArr []) = true ->
      Value_Clean (Req.schema r) (VArr []) = VArr [] ->
      Value_Cast (Req.schema r) (VArr []) = VArr [] ->
      fst (query r w) = VArr []) /\
  (forall r w handle u checked,
      _isTArray (Req.schema r) = true ->
      _database w = Some handle ->
      execution r (handle tt) (outside w) = (Normal (VArr []), u) ->
      reachesCheck r (VArr []) checked ->
      Value_Check (Req.schema r) checked = false ->
      fst (query r w) =
        if opaqueFlag r then VUndefined
        else VStatus 500 (VStr ("couldn't retrieve " ++ titleOf r))).
Proof.
  split; [exact notFound_wording |].
  split; [reflexivity |].
  split; [| split; [| split]].
  - intros r w handle values u Hsingle Hsome Hop Hwording.
    rewrite (query_resolves r w handle _ u Hsome Hop).
    apply resolve_not_found.
    rewrite Hsingle. now apply notFound_wording.
  - intros r w handle values u Hsome Hop Hcase.
    rewrite (query_resolves r w handle _ u Hsome Hop).
    destruct (isErrorResponse values) eqn:Hshape.
    + now apply resolve_error_shaped.
    + destruct (reachesCheck_total r values) as [checked Hchecked].
      exists checked. split; [exact Hchecked |].
      apply resolve_settles; try assumption.
      destruct Hcase as [-> | Hnot]; [reflexivity |].
      destruct (_isTArray (Req.schema r)); [reflexivity |].
      destruct (notFound false values) eqn:Hnf; [| reflexivity].
      exfalso. apply Hnot. now apply notFound_wording.
  - intros r w handle u Hplural Hsome Hop Hconv Henc Hcheck Hclean Hcast.
    rewrite (query_resolves r w handle _ u Hsome Hop).
    assert (Hc : converted r (VArr []) = VArr []).
    { unfold converted, subject. rewrite Hplural. exact Hconv. }
    rewrite (resolve_settles r (VArr []) (afterRead w u) (VArr [])).
    + unfold settled. now rewrite Hcheck, Hclean, Hcast.
    + reflexivity.
    + now rewrite Hplural.
    + unfold reachesCheck. rewrite Hc.
      destruct Henc as [Henc | Henc]; [now left | now right].
  - intros r w handle u checked Hplural Hsome Hop Hreach Hcheck.
    rewrite (query_resolves r w handle _ u Hsome Hop).
    rewrite (resolve_settles r (VArr []) (afterRead w u) checked).
    + unfold settled. now rewrite Hcheck.
    + reflexivity.
    + now rewrite Hplural.
    + exact Hreach.
Qed.

(** C7: when the encoding pass raises, a warning is written and the
    converted value goes on to the validity check: the caller gets the
    cleaned and cast converted value if it is valid and the validation
    failure otherwise. *)
Theorem encoding_failure_swallowed r w handle values u e :
  _database w = Some handle ->
  execution r (handle tt) (outside w) = (Normal values, u) ->
  isErrorResponse values = false ->
  notFound (_isTArray (Req.schema r)) values = false ->
  Value_Encode (Req.schema r) (converted r values) = Throw e ->
  fst (query r w) = settled r (converted r values) /\
  console (snd (query r w)) =
    (console w ++
     {| level := LevelWarn;
        message := "an error occurred while encoding " ++ titleOf r;
        extra := [converted r values;
                  VArr (Value_Errors (Req.schema r) (converted r values))] |} ::
     (if Value_Check (Req.schema r) (converted r values) then []
      else [{| level := LevelError;
               message := "an error occurred while parsing " ++ titleOf r;
               extra := [converted r values;
                         VArr (Value_Errors (Req.schema r) (converted r values))] |}]))%list.
Proof.
  intros Hsome Hop Hshape Hnf Henc.
  rewrite (query_resolves r w handle _ u Hsome Hop).
  exact (resolve_encoder_raised r values (afterRead w u) e Hshape Hnf Henc).
Qed.

(** C8: when the value that reaches the validity check fails it, [query]
    returns undefined in opaque mode and otherwise 500 "couldn't retrieve
    {item name}"; it returns, it does not raise. *)
Theorem validation_failure_outcome r w handle values u checked :
  _database w = Some handle ->
  execution r (handle tt) (outside w) = (Normal values, u) ->
  isErrorResponse values = false ->
  notFound (_isTArray (Req.schema r)) values = false ->
  reachesCheck r values checked ->
  Value_Check (Req.schema r) checked = false ->
  fst (query r w) =
    if opaqueFlag r then VUndefined
    else VStatus 500 (VStr ("couldn't retrieve " ++ titleOf r)).
Proof.
  intros Hsome Hop Hshape Hnf Hreach Hcheck.
  rewrite (query_resolves r w handle _ u Hsome Hop).
  rewrite (resolve_settles r values (afterRead w u) checked Hshape Hnf Hreach).
  unfold settled. now rewrite Hcheck.
Qed.

(** C9, as the code has it: a result that is not taken for an error
    response nor for not-found, and whose converted value, or the encoder's
    result when the encoder returns, passes the validity check, is answered
    with the clean and cast of that checked value.  It is the checked value,
    not the raw result, that is kept: where the clean step is the projection
    onto the declared properties and the cast keeps the cleaned value, the
    answer has the declared properties of the checked value unchanged and
    none of the others, and is the checked value itself when it has no
    undeclared property. *)
Theorem valid_result_projected r w handle values u checked :
  _database w = Some handle ->
  execution r (handle tt) (outside w) = (Normal values, u) ->
  isErrorResponse values = false ->
  notFound (_isTArray (Req.schema r)) values = false ->
  reachesCheck r values checked ->
  Value_Check (Req.schema r) checked = true ->
  fst (query r w)
  = Value_Cast (Req.schema r) (Value_Clean (Req.schema r) checked) /\
  (Value_Clean (Req.schema r) checked
     = strip (properties (Req.schema r)) checked ->
   Value_Cast (Req.schema r) (strip (properties (Req.schema r)) checked)
     = strip (properties (Req.schema r)) checked ->
   fst (query r w) = strip (properties (Req.schema r)) checked /\
   (forall props,
       checked = VObj props ->
       exists kept,
         fst (query r w) = VObj kept /\
         (forall k, declared (properties (Req.schema r)) k = true ->
                    getProp k kept = getProp k props) /\
         (forall k, declared (properties (Req.schema r)) k = false ->
                    getProp k kept = None)) /\
   (onlyDeclared (properties (Req.schema r)) checked = true ->
    fst (query r w) = checked)).
Proof.
  intros Hsome Hop Hshape Hnf Hreach Hcheck.
  assert (Hanswer : fst (query r w)
                    = Value_Cast (Req.schema r) (Value_Clean (Req.schema r) checked)).
  { rewrite (query_resolves r w handle _ u Hsome Hop).
    rewrite (resolve_settles r values (afterRead w u) checked Hshape Hnf Hreach).
    unfold settled. now rewrite Hcheck. }
  split; [exact Hanswer |].
  intros Hclean Hcast.
  assert (Hresult : fst (query r w) = strip (properties (Req.schema r)) checked).
  { now rewrite Hanswer, Hclean, Hcast. }
  split; [exact Hresult |].
  split.
  - intros props Hprops.
    exists (stripProps (properties (Req.schema r)) props).
    rewrite Hresult, Hprops. simpl.
    split; [reflexivity |].
    split; intros k Hk.
    + now apply getProp_stripProps_declared.
    + now apply getProp_stripProps_undeclared.
  - intros Honly.
    rewrite Hresult. now apply strip_only_declared.
Qed.

End QueryClaims.

(** ** The sample instance at work *)

Lemma error_shaped_result_returned_verbatim_witness :
  query (Sample.custom Sample.Reply Sample.reply (Some true)) (Sample.bound Sample.failing)
  = (Sample.reply, afterRead (Sample.bound Sample.failing) 0).
Proof.
  apply (error_shaped_result_returned_verbatim
           (Sample.custom Sample.Reply Sample.reply (Some true))
           (Sample.bound Sample.failing) (fun _ => Sample.failing));
    reflexivity.
Defined.

Lemma custom_query_alone_witness :
  query (Sample.custom Sample.User Sample.aliceWithHash None)
        (Sample.bound Sample.failing)
  = (Sample.alice, afterRead (Sample.bound Sample.failing) 0) /\
  outside (snd (query (Sample.custom Sample.User Sample.aliceWithHash None)
                      (Sample.bound Sample.failing)))
  = 0.
Proof.
  exact (proj1 (proj2 (proj2 (custom_query_alone
                                (Sample.custom Sample.User Sample.aliceWithHash None)
                                (fun _ n => (Normal Sample.aliceWithHash, n))
                                eq_refl)))
               (Sample.bound Sample.failing) (fun _ => Sample.failing)
               Sample.aliceWithHash 0 eq_refl eq_refl).
Defined.

Lemma not_found_classification_witness :
  query (Sample.byId Sample.User 2 None) (Sample.bound (Sample.answering (VArr [])))
  = (VStatus 404 (VStr "user not found"),
     afterRead (Sample.bound (Sample.answering (VArr []))) 1) /\
  fst (query (Sample.everything Sample.Users None)
             (Sample.bound (Sample.answering (VArr []))))
  = VArr [].
Proof.
  split.
  2: { refine (proj1 (proj2 (proj2 (proj2 (proj2 not_found_classification))))
                 (Sample.everything Sample.Users None)
                 (Sample.bound (Sample.answering (VArr [])))
                 (fun _ => Sample.answering (VArr [])) 1
                 eq_refl eq_refl eq_refl eq_refl _ eq_refl eq_refl eq_refl).
       left. reflexivity. }
  refine (proj1 (proj2 (proj2 not_found_classification))
            (Sample.byId Sample.User 2 None)
            (Sample.bound (Sample.answering (VArr [])))
            (fun _ => Sample.answering (VArr [])) (VArr []) 1
            eq_refl eq_refl eq_refl _).
  right. exists []. split; [reflexivity | discriminate].
Defined.

Lemma encoding_failure_swallowed_witness :
  fst (query (Sample.byId Sample.LegacyUser 1 None)
             (Sample.bound (Sample.answering (VArr [Sample.aliceWithHash]))))
  = Sample.alice.
Proof.
  exact (proj1 (encoding_failure_swallowed
                  (Sample.byId Sample.LegacyUser 1 None)
                  (Sample.bound (Sample.answering (VArr [Sample.aliceWithHash])))
                  (fun _ => Sample.answering (VArr [Sample.aliceWithHash]))
                  (VArr [Sample.aliceWithHash]) 1 (VStr "encoder failed")
                  eq_refl eq_refl eq_refl eq_refl eq_refl)).
Defined.

Lemma validation_failure_outcome_witness :
  fst (query (Sample.byId Sample.User 1 None)
             (Sample.bound (Sample.answering (VArr [VObj [("id", VStr "x")]]))))
  = VStatus 500 (VStr "couldn't retrieve user").
Proof.
  refine (validation_failure_outcome
            (Sample.byId Sample.User 1 None)
            (Sample.bound (Sample.answering (VArr [VObj [("id", VStr "x")]])))
            (fun _ => Sample.answering (VArr [VObj [("id", VStr "x")]]))
            (VArr [VObj [("id", VStr "x")]]) 1 (VObj [("id", VStr "x")])
            eq_refl eq_refl eq_refl eq_refl _ eq_refl).
  right. split; [| reflexivity].
  exists (VStr "value does not match the schema"). reflexivity.
Defined.

Lemma valid_result_projected_witness :
  fst (query (Constrained.byId Constrained.ShiftedUser 1 None)
             (Sample.bound (Sample.answering (VArr [Sample.aliceWithHash]))))
  = VObj [("id", VNum 2); ("name", VStr "alice")].
Proof.
  refine (proj1 (proj2 (valid_result_projected
                   (Constrained.byId Constrained.ShiftedUser 1 None)
                   (Sample.bound (Sample.answering (VArr [Sample.aliceWithHash])))
                   (fun _ => Sample.answering (VArr [Sample.aliceWithHash]))
                   (VArr [Sample.aliceWithHash]) 1
                   (VObj [("id", VNum 2); ("password", VStr "x"); ("name", VStr "alice")])
                   eq_refl eq_refl eq_refl eq_refl _ eq_refl) eq_refl eq_refl)).
  left. reflexivity.
Defined.

(** ** Where the wording of two rules goes too far *)

(** C2: an array schema that asks for at least one item rejects the empty
    array, so zero rows are answered with the validation failure, not with
    the empty array (and not with not-found either). *)
Lemma zero_rows_rejected_by_schema :
  _isTArray Constrained.SomeUsers = true /\
  fst (query (Constrained.everything Constrained.SomeUsers None)
             (Sample.bound (Sample.answering (VArr []))))
  = VStatus 500 (VStr "couldn't retrieve users") /\
  fst (query (Constrained.everything Constrained.SomeUsers (Some true))
             (Sample.bound (Sample.answering (VArr []))))
  = VUndefined /\
  fst (query (Constrained.everything Constrained.SomeUsers None)
             (Sample.bound (Sample.answering (VArr []))))
  <> VArr [].
Proof.
  repeat split. discriminate.
Qed.

(** C9: a row that satisfies the schema comes back with a declared property
    changed when the encoder of the schema is a transform; and a record that
    satisfies its schema and owns "code" and "response" comes back with its
    undeclared property still there. *)
Lemma valid_result_not_projected :
  (Value_Check Constrained.ShiftedUser Sample.alice = true /\
   fst (query (Constrained.byId Constrained.ShiftedUser 1 None)
              (Sample.bound (Sample.answering (VArr [Sample.alice]))))
   = VObj [("id", VNum 2); ("name", VStr "alice")] /\
   getProp "id" [("id", VNum 2); ("name", VStr "alice")]
   <> getProp "id" [("id", VNum 1); ("name", VStr "alice")]) /\
  (Value_Check Sample.Reply Sample.reply = true /\
   declared (properties Sample.Reply) "secret" = false /\
   fst (query (Sample.custom Sample.Reply Sample.reply None)
              (Sample.bound (Sample.answering (VArr []))))
   = VObj [("code", VNum 7); ("response", VStr "ok"); ("secret", VStr "s")]).
Proof.
  repeat split. discriminate.
Qed.

(** ** Scenarios *)

Example user_found :
  fst (query (Sample.byId Sample.User 1 None)
             (Sample.bound (Sample.answering (VArr [Sample.alice]))))
  = VObj [("id", VNum 1); ("name", VStr "alice")].
Proof. reflexivity. Qed.

Example user_not_found :
  fst (query (Sample.byId Sample.User 2 None)
             (Sample.bound (Sample.answering (VArr []))))
  = VStatus 404 (VStr "user not found").
Proof. reflexivity. Qed.

Example user_not_found_opaque :
  fst (query (Sample.byId Sample.User 2 (Some true))
             (Sample.bound (Sample.answering (VArr []))))
  = VUndefined.
Proof. reflexivity. Qed.

Example two_rows_for_one_record :
  fst (query (Sample.byId Sample.User 1 None)
             (Sample.bound (Sample.answering (VArr [Sample.alice; Sample.alice]))))
  = VStatus 404 (VStr "user not found").
Proof. reflexivity. Qed.

Example no_rows_for_array_schema :
  fst (query (Sample.everything Sample.Users None)
             (Sample.bound (Sample.answering (VArr []))))
  = VArr [].
Proof. reflexivity. Qed.

Example read_fails_in_opaque_mode :
  fst (query (Sample.byId Sample.User 1 (Some true)) (Sample.bound Sample.failing))
  = VStatus 500 (VStr "couldn't query user").
Proof. reflexivity. Qed.

Example custom_query_runs_no_read :
  outside (snd (query (Sample.custom Sample.User Sample.alice None)
                      (Sample.bound (Sample.answering (VArr [])))))
  = 0.
Proof. reflexivity. Qed.

Example error_shaped_record_keeps_extras :
  fst (query (Sample.custom Sample.Reply Sample.reply None)
             (Sample.bound (Sample.answering (VArr []))))
  = VObj [("code", VNum 7); ("response", VStr "ok"); ("secret", VStr "s")].
Proof. reflexivity. Qed.

(** * Further properties of the package *)

(** ** [database] and [databaseInitialize] *)

Section DatabaseContract.

Context {U : Type} {rt : Runtime}.

Implicit Types (op : Database U -> U -> completion value * U) (w : World U).

(** X1: an operation that completes normally has its result handed back as
    it is, whatever it is; nothing is written and the binding stays. *)
Theorem database_passes_result op label w handle result u :
  _database w = Some handle ->
  op (handle tt) (outside w) = (Normal result, u) ->
  fst (database op label w) = result /\
  console (snd (database op label w)) = console w /\
  _database (snd (database op label w)) = Some handle /\
  outside (snd (database op label w)) = u.
Proof.
  intros Hsome Hop.
  rewrite (database_returns op label w handle result u Hsome Hop).
  repeat split.
Qed.

(** X2: when the operation raises, what it did to the outside state before
    raising stays, the binding stays, and one error line is written that
    carries the label and the rendering of what was raised. *)
Theorem database_raise_diagnostic op label w handle e u :
  _database w = Some handle ->
  op (handle tt) (outside w) = (Throw e, u) ->
  outside (snd (database op label w)) = u /\
  _database (snd (database op label w)) = Some handle /\
  console (snd (database op label w)) =
    (console w ++
     [{| level := LevelError;
         message := "an error occurred while " ++ label;
         extra := [VStr (inspect e)] |}])%list.
Proof.
  intros Hsome Hop.
  rewrite (database_raises op label w handle e u Hsome Hop).
  repeat split.
Qed.

(** X3: [database] never rebinds the handle and never drops a console line;
    it adds at most one line, at error level. *)
Theorem database_keeps_binding_and_console op label w :
  _database (snd (database op label w)) = _database w /\
  exists added,
    console (snd (database op label w)) = (console w ++ added)%list /\
    List.length added <= 1 /\
    forall line, In line added -> level line = LevelError.
Proof.
  destruct (_database w) as [handle |] eqn:Hbound.
  - destruct (op (handle tt) (outside w)) as [[result | e] u] eqn:Hop.
    + rewrite (database_returns op label w handle result u Hbound Hop). simpl.
      split; [reflexivity |].
      exists []. rewrite app_nil_r. repeat split; [simpl; lia | intros line []].
    + rewrite (database_raises op label w handle e u Hbound Hop). simpl.
      split; [reflexivity |].
      eexists. split; [reflexivity |].
      split; [simpl; lia |].
      intros line [<- | []]. reflexivity.
  - rewrite (database_unbound op label w Hbound). simpl.
    split; [reflexivity |].
    eexists. split; [reflexivity |].
    split; [simpl; lia |].
    intros line [<- | []]. reflexivity.
Qed.

(** X4: [databaseInitialize] returns the accessor it was given, binds it and
    touches nothing else, and a later call replaces an earlier binding.  The
    binding is the one the next [database] uses, whatever was bound before:
    an operation that completes on the handle of the new accessor has its
    result returned, and one that raises there is answered with 500. *)
Theorem databaseInitialize_binds drizzle w :
  fst (databaseInitialize drizzle w) = drizzle /\
  _database (snd (databaseInitialize drizzle w)) = Some drizzle /\
  console (snd (databaseInitialize drizzle w)) = console w /\
  outside (snd (databaseInitialize drizzle w)) = outside w /\
  (forall earlier,
      (databaseInitialize earlier ;;; databaseInitialize drizzle) w
      = databaseInitialize drizzle w) /\
  (forall op label result u,
      op (drizzle tt) (outside w) = (Normal result, u) ->
      (databaseInitialize drizzle ;;; database op label) w
      = (result,
         {| _database := Some drizzle; console := console w; outside := u |})) /\
  (forall op label e u,
      op (drizzle tt) (outside w) = (Throw e, u) ->
      fst ((databaseInitialize drizzle ;;; database op label) w)
      = VStatus 500 (VStr ("couldn't " ++ label)) /\
      outside (snd ((databaseInitialize drizzle ;;; database op label) w)) = u).
Proof.
  do 4 (split; [reflexivity |]).
  split; [intros earlier; reflexivity |].
  split.
  - intros op label result u Hop.
    unfold bind, databaseInitialize.
    set (w' := {| _database := Some drizzle; console := console w; outside := outside w |}).
    now rewrite (database_returns op label w' drizzle result u eq_refl Hop).
  - intros op label e u Hop.
    unfold bind, databaseInitialize.
    set (w' := {| _database := Some drizzle; console := console w; outside := outside w |}).
    now rewrite (database_raises op label w' drizzle e u eq_refl Hop).
Qed.

End DatabaseContract.

Lemma database_passes_result_witness :
  fst (database (fun d n => run d {| from := Sample.users; where_ := None; orderBy := None |} n)
                "list users" (Sample.bound (Sample.answering (VArr [Sample.alice]))))
  = VArr [Sample.alice].
Proof.
  apply (database_passes_result
           (fun d n => run d {| from := Sample.users; where_ := None; orderBy := None |} n)
           "list users" (Sample.bound (Sample.answering (VArr [Sample.alice])))
           (fun _ => Sample.answering (VArr [Sample.alice])) (VArr [Sample.alice]) 1);
    reflexivity.
Defined.

Lemma database_raise_diagnostic_witness :
  outside (snd (database (fun d n => run d {| from := Sample.users; where_ := None; orderBy := None |} n)
                         "list users" (Sample.bound Sample.failing)))
  = 1.
Proof.
  exact (proj1 (database_raise_diagnostic
                  (fun d n => run d {| from := Sample.users; where_ := None; orderBy := None |} n)
                  "list users" (Sample.bound Sample.failing) (fun _ => Sample.failing)
                  (VStr "connection lost") 1 eq_refl eq_refl)).
Defined.

Lemma databaseInitialize_binds_witness :
  (databaseInitialize (fun _ => Sample.answering (VArr [Sample.alice])) ;;;
   database (fun d n => run d {| from := Sample.users; where_ := None; orderBy := None |} n)
            "list users") Sample.unbound
  = (VArr [Sample.alice],
     {| _database := Some (fun _ => Sample.answering (VArr [Sample.alice]));
        console := [];
        outside := 1 |}).
Proof.
  exact (proj1 (proj2 (proj2 (proj2 (proj2 (proj2
           (databaseInitialize_binds
              (fun _ => Sample.answering (VArr [Sample.alice])) Sample.unbound))))))
           (fun d n => run d {| from := Sample.users; where_ := None; orderBy := None |} n)
           "list users" (VArr [Sample.alice]) 1 eq_refl).
Defined.

(** ** The reads [query] issues *)

Section Reads.

Context {U Schema : Type}.

Implicit Types (r : Req.t U Schema) (drizzle : Database U).

(** X5: without a custom function [query] issues one read, from the table
    of the request, filtered by what was given: the identifier test and the
    filter joined by [and] when both are there, the one that is there
    otherwise, and no [where] at all when neither is. *)
Theorem builtin_read_filter r :
  Req.complex r = None ->
  exists q,
    (forall drizzle u, execution r drizzle u = run drizzle q u) /\
    from q = Req.table r /\
    where_ q =
      match Req.id r, Req.query r with
      | Some id, Some filter => Some (sql_and (sql_eq (Req.idColumn r) id) filter)
      | Some id, None => Some (sql_eq (Req.idColumn r) id)
      | None, Some filter => Some filter
      | None, None => None
      end.
Proof.
  intros Hcomplex.
  unfold execution. rewrite Hcomplex.
  destruct (Req.query r) as [filter |], (Req.id r) as [id |],
           (Req.order r) as [order |];
    eexists; (split; [intros drizzle u; reflexivity | split; reflexivity]).
Qed.

(** X6: the read is ordered by the ordering of the request when there is
    one; without one it is ordered by the identifier column, descending,
    when an identifier was given, and not ordered otherwise. *)
Theorem builtin_read_order r :
  Req.complex r = None ->
  exists q,
    (forall drizzle u, execution r drizzle u = run drizzle q u) /\
    orderBy q =
      match Req.order r, Req.id r with
      | Some order, _ => Some order
      | None, Some _ => Some (order_sql (sql_desc (Req.idColumn r)))
      | None, None => None
      end.
Proof.
  intros Hcomplex.
  unfold execution. rewrite Hcomplex.
  destruct (Req.query r) as [filter |], (Req.id r) as [id |],
           (Req.order r) as [order |];
    eexists; (split; [intros drizzle u; reflexivity | reflexivity]).
Qed.

End Reads.

Lemma builtin_read_filter_witness :
  exists q,
    (forall drizzle u,
        execution (Sample.byId Sample.User 1 None) drizzle u = run drizzle q u) /\
    from q = Sample.users /\
    where_ q = Some (sql_eq (Some Sample.usersId) (IdNumber 1)).
Proof.
  exact (builtin_read_filter (Sample.byId Sample.User 1 None) eq_refl).
Defined.

Lemma builtin_read_order_witness :
  exists q,
    (forall drizzle u,
        execution (Sample.byId Sample.User 1 None) drizzle u = run drizzle q u) /\
    orderBy q = Some (order_sql (sql_desc (Some Sample.usersId))).
Proof.
  exact (builtin_read_order (Sample.byId Sample.User 1 None) eq_refl).
Defined.

(** ** What [query] answers and what it leaves behind *)

Section QueryContract.

Context {U Schema : Type} {ops : SchemaOps Schema} {rt : Runtime}.

Implicit Types (r : Req.t U Schema) (w : World U) (values : value).

Lemma resolve_console r values w :
  exists added,
    console (snd (resolve r values w)) = (console w ++ added)%list /\
    List.length added <= 2.
Proof.
  destruct (isErrorResponse values) eqn:Hshape.
  - rewrite (resolve_error_shaped r values w Hshape). simpl.
    exists []. rewrite app_nil_r. split; [reflexivity | simpl; lia].
  - destruct (notFound (_isTArray (Req.schema r)) values) eqn:Hnf.
    + rewrite (resolve_not_found r values w Hnf). simpl.
      exists []. rewrite app_nil_r. split; [reflexivity | simpl; lia].
    + destruct (Value_Encode (Req.schema r) (converted r values))
        as [encoded | e] eqn:Henc.
      * destruct (resolve_encoded r values w encoded Hshape Hnf Henc) as [_ ->].
        eexists. split; [reflexivity |].
        destruct (Value_Check _ _); simpl; lia.
      * destruct (resolve_encoder_raised r values w e Hshape Hnf Henc) as [_ ->].
        eexists. split; [reflexivity |].
        destruct (Value_Check _ _); simpl; lia.
Qed.

(** The answer of [query], along the branches of [database] and of what
    follows the read. *)
Lemma query_cases r w :
  match _database w with
  | None => fst (query r w) = VStatus 503 (VStr "database is not ready")
  | Some handle =>
      match fst (execution r (handle tt) (outside w)) with
      | Throw _ =>
          fst (query r w) = VStatus 500 (VStr ("couldn't query " ++ titleOf r))
      | Normal values =>
          if isErrorResponse values then fst (query r w) = values
          else if notFound (_isTArray (Req.schema r)) values then
            fst (query r w) =
              if opaqueFlag r then VUndefined
              else VStatus 404 (VStr (titleOf r ++ " not found"))
          else
            exists checked,
              reachesCheck r values checked /\
              fst (query r w) = settled r checked
      end
  end.
Proof.
  destruct (_database w) as [handle |] eqn:Hbound.
  - destruct (execution r (handle tt) (outside w)) as [[values | e] u] eqn:Hop; simpl.
    + rewrite (query_resolves r w handle values u Hbound Hop).
      destruct (isErrorResponse values) eqn:Hshape.
      * now rewrite (resolve_error_shaped r values _ Hshape).
      * destruct (notFound (_isTArray (Req.schema r)) values) eqn:Hnf.
        -- now rewrite (resolve_not_found r values _ Hnf).
        -- destruct (reachesCheck_total r values) as [checked Hreach].
           exists checked. split; [exact Hreach |].
           now apply resolve_settles.
    + exact (query_raises r w handle e u Hbound Hop).
  - exact (query_unbound r w Hbound).
Qed.

(** X8: what an opaque call can answer: undefined, a value that looks like
    an error response (the ones of [database] among them), or the cleaned
    and cast form of a value that passed the validity check. *)
Theorem opaque_answers r w :
  opaqueFlag r = true ->
  fst (query r w) = VUndefined \/
  isErrorResponse (fst (query r w)) = true \/
  exists checked,
    Value_Check (Req.schema r) checked = true /\
    fst (query r w)
    = Value_Cast (Req.schema r) (Value_Clean (Req.schema r) checked).
Proof.
  intros Hopaque.
  pose proof (query_cases r w) as Hcases.
  destruct (_database w) as [handle |].
  - destruct (fst (execution r (handle tt) (outside w))) as [values | e].
    + destruct (isErrorResponse values) eqn:Hshape.
      * right; left. now rewrite Hcases.
      * destruct (notFound (_isTArray (Req.schema r)) values).
        -- left. now rewrite Hcases, Hopaque.
        -- destruct Hcases as [checked [_ ->]].
           unfold settled. rewrite Hopaque.
           destruct (Value_Check (Req.schema r) checked) eqn:Hcheck.
           ++ right; right. now exists checked.
           ++ now left.
    + right; left. now rewrite Hcases.
  - right; left. now rewrite Hcases.
Qed.

(** X9: [query] never rebinds the handle and never drops a console line; it
    adds at most two lines. *)
Theorem query_keeps_binding_and_console r w :
  _database (snd (query r w)) = _database w /\
  exists added,
    console (snd (query r w)) = (console w ++ added)%list /\
    List.length added <= 2.
Proof.
  destruct (_database w) as [handle |] eqn:Hbound.
  - destruct (execution r (handle tt) (outside w)) as [[values | e] u] eqn:Hop.
    + rewrite (query_resolves r w handle values u Hbound Hop).
      split.
      * rewrite (proj1 (resolve_world r values (afterRead w u))). exact Hbound.
      * exact (resolve_console r values (afterRead w u)).
    + unfold query, bind.
      rewrite (database_raises _ _ w handle e u Hbound Hop).
      rewrite resolve_error_shaped by reflexivity. simpl.
      split; [reflexivity |].
      eexists. split; [reflexivity | simpl; lia].
  - unfold query, bind.
    rewrite (database_unbound _ _ w Hbound).
    rewrite resolve_error_shaped by reflexivity. simpl.
    split; [reflexivity |].
    eexists. split; [reflexivity | simpl; lia].
Qed.

(** X10: nothing that follows the read touches the outside state and the
    read is not repeated: once the operation has completed, by returning or
    by raising, the outside state after [query] is the one it left, whatever
    the result is taken for and whatever validation decides; while the
    handle is unbound the outside state stays as it was. *)
Theorem query_leaves_what_the_read_left r w :
  (forall handle outcome u,
      _database w = Some handle ->
      execution r (handle tt) (outside w) = (outcome, u) ->
      outside (snd (query r w)) = u) /\
  (_database w = None -> outside (snd (query r w)) = outside w).
Proof.
  split.
  - intros handle [values | e] u Hbound Hop.
    + rewrite (query_resolves r w handle values u Hbound Hop).
      now rewrite (proj2 (resolve_world r values (afterRead w u))).
    + unfold query, bind.
      rewrite (database_raises _ _ w handle e u Hbound Hop).
      reflexivity.
  - intros Hunbound.
    unfold query, bind.
    rewrite (database_unbound _ _ w Hunbound).
    reflexivity.
Qed.

(** X11: a status response that the read itself returns (a custom function
    may build one) is handed back unchanged in either mode, like the ones
    [database] makes: nothing is written and no schema operation applies. *)
Theorem returned_status_passes r w handle code response u :
  _database w = Some handle ->
  execution r (handle tt) (outside w) = (Normal (VStatus code response), u) ->
  query r w = (VStatus code response, afterRead w u).
Proof.
  intros Hbound Hop.
  rewrite (query_resolves r w handle _ u Hbound Hop).
  now apply resolve_error_shaped.
Qed.

(** X12: when the encoding pass returns, it is its result, not the
    converted value, that is checked, cleaned, cast and returned; a valid
    one is returned without any diagnostic. *)
Theorem encoded_value_is_returned r w handle values u encoded :
  _database w = Some handle ->
  execution r (handle tt) (outside w) = (Normal values, u) ->
  isErrorResponse values = false ->
  notFound (_isTArray (Req.schema r)) values = false ->
  Value_Encode (Req.schema r) (converted r values) = Normal encoded ->
  Value_Check (Req.schema r) encoded = true ->
  query r w =
    (Value_Cast (Req.schema r) (Value_Clean (Req.schema r) encoded),
     afterRead w u).
Proof.
  intros Hbound Hop Hshape Hnf Henc Hcheck.
  rewrite (query_resolves r w handle values u Hbound Hop).
  unfold resolve. rewrite Hshape, Hnf.
  unfold encodePass, bind, ret.
  fold (subject r values). fold (converted r values).
  now rewrite Henc, Hcheck.
Qed.

End QueryContract.

(** ** The opaque flag *)

Section OpaqueFlag.

Context {U Schema : Type} {ops : SchemaOps Schema} {rt : Runtime}.

Implicit Types (r : Req.t U Schema) (w : World U) (values : value).

Lemma resolve_opaque r values w :
  snd (resolve (withOpaque r (Some true)) values w)
  = snd (resolve (withOpaque r (Some false)) values w) /\
  (fst (resolve (withOpaque r (Some true)) values w)
   = fst (resolve (withOpaque r (Some false)) values w) \/
   fst (resolve (withOpaque r (Some true)) values w) = VUndefined) /\
  resolve (withOpaque r None) values w
  = resolve (withOpaque r (Some false)) values w.
Proof.
  unfold resolve, encodePass, bind, console_warn, console_error, log, ret.
  cbn [withOpaque Req.schema Req.table Req.opaque opaqueFlag].
  destruct (isErrorResponse values); [now repeat split; left |].
  destruct (notFound _ values); [now repeat split; right |].
  destruct (Value_Encode _ _) as [encoded | e];
    destruct (Value_Check _ _); cbn;
    (repeat split; (now left) || (now right)).
Qed.

(** X13: the opaque flag changes nothing but the answer, and the answer
    only by putting undefined in its place: an opaque call leaves the same
    world as a plain one, and what it returns is what the plain call returns
    or undefined.  Leaving the flag out is the same as setting it to false. *)
Theorem opaque_only_hides r w :
  snd (query (withOpaque r (Some true)) w)
  = snd (query (withOpaque r (Some false)) w) /\
  (fst (query (withOpaque r (Some true)) w)
   = fst (query (withOpaque r (Some false)) w) \/
   fst (query (withOpaque r (Some true)) w) = VUndefined) /\
  query (withOpaque r None) w = query (withOpaque r (Some false)) w.
Proof.
  unfold query, bind.
  change (execution (withOpaque r (Some true))) with (execution r).
  change (execution (withOpaque r (Some false))) with (execution r).
  change (execution (withOpaque r None)) with (execution r).
  cbn [withOpaque Req.schema Req.table].
  destruct (database (execution r) _ w) as [values w'].
  exact (resolve_opaque r values w').
Qed.

End OpaqueFlag.

(** ** Length of the item name *)

Lemma length_prefix (n : nat) (s : string) :
  String.length (prefix n s) = Nat.min n (String.length s).
Proof.
  unfold prefix.
  revert n. induction s as [| c s IH]; intros [| n]; simpl; try reflexivity.
  now rewrite IH.
Qed.

Lemma endsWith_length (s suffix : string) :
  endsWith s suffix = true -> String.length suffix <= String.length s.
Proof.
  unfold endsWith. intros H.
  apply andb_true_iff in H as [Hle _].
  now apply Nat.leb_le.
Qed.

(** X14: for a record schema the item name is two characters shorter than
    the table name exactly when the "ie" rule applies, that is when the name
    without its last character ends in "ie", and one character shorter
    otherwise (the empty name stays empty); for an array schema the length is
    that of the table name. *)
Theorem formatItem_length name :
  String.length (_formatItem name true) = String.length name /\
  String.length (_formatItem name false) =
    (if endsWith (prefix (String.length name - 1) name) "ie"
     then String.length name - 2
     else String.length name - 1) /\
  (forall stem c,
      String.length (_formatItem ((stem ++ "ie") ++ String c "") false)
      = String.length stem + 1) /\
  (forall stem c,
      endsWith stem "ie" = false ->
      String.length (_formatItem (stem ++ String c "") false)
      = String.length stem).
Proof.
  split; [reflexivity |].
  split; [| split].
  - unfold _formatItem.
    pose proof (length_prefix (String.length name - 1) name) as Hshort.
    rewrite Nat.min_l in Hshort by lia.
    destruct (endsWith (prefix (String.length name - 1) name) "ie") eqn:Hie.
    + apply endsWith_length in Hie. simpl in Hie.
      rewrite length_app, length_prefix, Hshort. simpl. lia.
    + exact Hshort.
  - intros stem c.
    assert (Hname : _formatItem ((stem ++ "ie") ++ String c "") false = stem ++ "y").
    { unfold _formatItem.
      rewrite strip_last, endsWith_app, length_app.
      simpl String.length.
      replace (String.length stem + 2 - 2) with (String.length stem) by lia.
      now rewrite prefix_app. }
    rewrite Hname, length_app. reflexivity.
  - intros stem c Hie.
    unfold _formatItem.
    now rewrite strip_last, Hie.
Qed.

Lemma formatItem_length_witness :
  String.length (_formatItem ("user" ++ String "s" "") false) = String.length "user".
Proof.
  exact (proj2 (proj2 (proj2 (formatItem_length "users"))) "user" "s"%char eq_refl).
Defined.

(** ** One record, bare or in an array *)

Section SingleRecord.

Context {U Schema : Type} {ops : SchemaOps Schema} {rt : Runtime}.

Implicit Types (r : Req.t U Schema) (w : World U).

(** X15: for a record schema a result that is the record itself is treated
    like the one-element array holding it, as long as it is not an array,
    not undefined and does not look like an error response: the same answer
    and the same diagnostics. *)
Theorem bare_record_like_single_row r w handle handle' record u :
  _isTArray (Req.schema r) = false ->
  isArray record = false ->
  isUndefined record = false ->
  isErrorResponse record = false ->
  _database w = Some handle ->
  execution r (handle tt) (outside w) = (Normal record, u) ->
  forall w',
    _database w' = Some handle' ->
    execution r (handle' tt) (outside w') = (Normal (VArr [record]), u) ->
    fst (query r w) = fst (query r w') /\
    forall added,
      console (snd (query r w')) = (console w' ++ added)%list ->
      console (snd (query r w)) = (console w ++ added)%list.
Proof.
  intros Hsingle Harr Hundef Hshape Hbound Hop w' Hbound' Hop'.
  rewrite (query_resolves r w handle record u Hbound Hop).
  rewrite (query_resolves r w' handle' (VArr [record]) u Hbound' Hop').
  assert (Hnf : notFound (_isTArray (Req.schema r)) record = false).
  { unfold notFound. now rewrite Harr, Hundef, andb_false_r. }
  assert (Hnf' : notFound (_isTArray (Req.schema r)) (VArr [record]) = false).
  { unfold notFound. simpl. now rewrite andb_false_r. }
  assert (Hconv : converted r (VArr [record]) = converted r record).
  { unfold converted, subject, selected. rewrite Hsingle, Harr. reflexivity. }
  destruct (Value_Encode (Req.schema r) (converted r record))
    as [encoded | e] eqn:Henc.
  - destruct (resolve_encoded r record (afterRead w u) encoded Hshape Hnf Henc)
      as [-> ->].
    rewrite <- Hconv in Henc.
    destruct (resolve_encoded r (VArr [record]) (afterRead w' u) encoded
                eq_refl Hnf' Henc) as [-> ->].
    split; [reflexivity |].
    intros added Hadded. now apply app_inv_head in Hadded as <-.
  - destruct (resolve_encoder_raised r record (afterRead w u) e Hshape Hnf Henc)
      as [-> ->].
    rewrite <- Hconv in Henc.
    destruct (resolve_encoder_raised r (VArr [record]) (afterRead w' u) e
                eq_refl Hnf' Henc) as [-> ->].
    rewrite Hconv.
    split; [reflexivity |].
    intros added Hadded. now apply app_inv_head in Hadded as <-.
Qed.

End SingleRecord.

(** ** The further properties on the sample instance *)

Lemma opaque_answers_witness :
  fst (query (Sample.byId Sample.User 1 (Some true)) (Sample.bound Sample.failing))
  = VUndefined \/
  isErrorResponse
    (fst (query (Sample.byId Sample.User 1 (Some true)) (Sample.bound Sample.failing)))
  = true \/
  exists checked,
    Value_Check Sample.User checked = true /\
    fst (query (Sample.byId Sample.User 1 (Some true)) (Sample.bound Sample.failing))
    = Value_Cast Sample.User (Value_Clean Sample.User checked).
Proof.
  exact (opaque_answers (Sample.byId Sample.User 1 (Some true))
                        (Sample.bound Sample.failing) eq_refl).
Defined.

Lemma returned_status_passes_witness :
  query (Sample.custom Sample.User (VStatus 500 (VStr "couldn't send email")) (Some true))
        (Sample.bound Sample.failing)
  = (VStatus 500 (VStr "couldn't send email"),
     afterRead (Sample.bound Sample.failing) 0).
Proof.
  exact (returned_status_passes
           (Sample.custom Sample.User (VStatus 500 (VStr "couldn't send email")) (Some true))
           (Sample.bound Sample.failing) (fun _ => Sample.failing)
           500%Z (VStr "couldn't send email") 0 eq_refl eq_refl).
Defined.

Lemma encoded_value_is_returned_witness :
  query (Sample.byId Sample.User 1 None)
        (Sample.bound (Sample.answering (VArr [Sample.aliceWithHash])))
  = (Sample.alice,
     afterRead (Sample.bound (Sample.answering (VArr [Sample.aliceWithHash]))) 1).
Proof.
  exact (encoded_value_is_returned
           (Sample.byId Sample.User 1 None)
           (Sample.bound (Sample.answering (VArr [Sample.aliceWithHash])))
           (fun _ => Sample.answering (VArr [Sample.aliceWithHash]))
           (VArr [Sample.aliceWithHash]) 1 Sample.aliceWithHash
           eq_refl eq_refl eq_refl eq_refl eq_refl eq_refl).
Defined.

Lemma bare_record_like_single_row_witness :
  fst (query {| Req.id := None;
                Req.idColumn := None;
                Req.order := None;
                Req.table := Sample.users;
                Req.schema := Sample.User;
                Req.query := None;
                Req.complex := Some (fun d n =>
                  run d {| from := Sample.users; where_ := None; orderBy := None |} n);
                Req.opaque := None |}
             (Sample.bound (Sample.answering Sample.aliceWithHash)))
  = fst (query {| Req.id := None;
                  Req.idColumn := None;
                  Req.order := None;
                  Req.table := Sample.users;
                  Req.schema := Sample.User;
                  Req.query := None;
                  Req.complex := Some (fun d n =>
                    run d {| from := Sample.users; where_ := None; orderBy := None |} n);
                  Req.opaque := None |}
               (Sample.bound (Sample.answering (VArr [Sample.aliceWithHash])))).
Proof.
  exact (proj1 (bare_record_like_single_row
                  {| Req.id := None;
                     Req.idColumn := None;
                     Req.order := None;
                     Req.table := Sample.users;
                     Req.schema := Sample.User;
                     Req.query := None;
                     Req.complex := Some (fun d n =>
                       run d {| from := Sample.users; where_ := None; orderBy := None |} n);
                     Req.opaque := None |}
                  (Sample.bound (Sample.answering Sample.aliceWithHash))
                  (fun _ => Sample.answering Sample.aliceWithHash)
                  (fun _ => Sample.answering (VArr [Sample.aliceWithHash]))
                  Sample.aliceWithHash 1
                  eq_refl eq_refl eq_refl eq_refl eq_refl eq_refl
                  (Sample.bound (Sample.answering (VArr [Sample.aliceWithHash])))
                  eq_refl eq_refl)).
Defined.

Lemma query_leaves_what_the_read_left_witness :
  outside (snd (query (Sample.byId Sample.User 1 None)
                      (Sample.bound (Sample.answering (VArr [VObj [("id", VStr "x")]])))))
  = 1.
Proof.
  exact (proj1 (query_leaves_what_the_read_left
                  (Sample.byId Sample.User 1 None)
                  (Sample.bound (Sample.answering (VArr [VObj [("id", VStr "x")]]))))
               (fun _ => Sample.answering (VArr [VObj [("id", VStr "x")]]))
               (Normal (VArr [VObj [("id", VStr "x")]])) 1 eq_refl eq_refl).
Defined.
